(** * Bedrock model comparison utilities: a shallow embedding of [utils.py]

    The module has two functions of interest:

    - [converse] builds the keyword arguments of one Bedrock Converse call
      out of Python dicts (one of which, [inference_config], is stored in the
      request by reference and extended afterwards), performs the call and
      picks the answer text out of the response's content blocks;
    - [calculate_monthly_cost] is a five-argument arithmetic formula.

    Python exceptions are an explicit result type, the dicts that [converse]
    allocates live in a store of objects addressed by location, and numbers
    are either CPython's ([int] as [Z], [float] as IEEE binary64 through
    [SpecFloat]) or exact rationals. *)

From Stdlib Require Import ZArith QArith Lia Lqa.
From Stdlib Require Import Floats.SpecFloat Strings.Ascii.
From stdpp Require Import gmap strings list.

#[local] Set Warnings "-register-all".
#[local] Open Scope Z_scope.

(** ** Exceptions *)

(** The exceptions that the two functions can let escape.  [ClientError]
    stands for whatever the remote call raises (authentication, throttling,
    validation, transport). *)
Inductive exn : Type :=
| KeyError (key : string)
| IndexError
| OverflowError
| ZeroDivisionError
| RecursionError
| ClientError (code : string).

(** A computation that returns a value or raises. *)
Inductive exc (A : Type) : Type :=
| Ok (a : A)
| Raise (e : exn).
Arguments Ok {A} a.
Arguments Raise {A} e.

#[export] Instance exc_ret : MRet exc := @Ok.
#[export] Instance exc_bind : MBind exc := λ A B f m,
  match m with
  | Ok a => f a
  | Raise e => Raise e
  end.
#[export] Instance exc_fmap : FMap exc := λ A B f m,
  match m with
  | Ok a => Ok (f a)
  | Raise e => Raise e
  end.

(** ** Strings: [str.lower] and the [in] operator *)

(** A Python [str] is held as the UTF-8 encoding of its code points; on such
    encodings the byte-wise substring test below is the [in] operator.

    [str.lower] is a builtin, Unicode-aware and outside the module under
    study: the definitions that call it take it as their argument [lower],
    and nothing is assumed of it.  [ascii_lower] is what it computes on a
    string of ASCII characters; it serves the concrete examples, all of whose
    identifiers are ASCII. *)
Module PyStr.

Definition ascii_lower_char (c : ascii) : ascii :=
  let n := nat_of_ascii c in
  if ((65 <=? n) && (n <=? 90))%nat then ascii_of_nat (n + 32) else c.

Fixpoint ascii_lower (s : string) : string :=
  match s with
  | EmptyString => EmptyString
  | String c s' => String (ascii_lower_char c) (ascii_lower s')
  end.

(** [needle in s] for two strings: [needle] occurs at some offset of [s]. *)
Fixpoint contains (needle s : string) : bool :=
  String.prefix needle s
  || match s with
     | EmptyString => false
     | String _ s' => contains needle s'
     end.

End PyStr.

(** ** Numbers *)

(** CPython's numbers as the cost formula meets them: [int] is unbounded,
    [float] is IEEE binary64 with round-to-nearest-even.  Arithmetic on
    floats never raises (it produces infinities and NaN); what raises is the
    passage from an [int] to a [float] that is out of the binary64 range,
    and division by zero. *)
Module PyNum.

Definition prec : Z := 53.
Definition emax : Z := 1024.

Inductive num : Type :=
| PyInt (z : Z)
| PyFloat (f : spec_float).

(** An integer-to-float result that rounds beyond the largest finite
    double is an [OverflowError], not an infinity. *)
Definition checked (f : spec_float) : exc spec_float :=
  match f with
  | S754_infinity _ => Raise OverflowError
  | _ => Ok f
  end.

(** [float(z)]: the nearest double, ties to even. *)
Definition int_to_float (z : Z) : exc spec_float :=
  checked (binary_normalize prec emax z 0 false).

Definition to_float (x : num) : exc spec_float :=
  match x with
  | PyInt z => int_to_float z
  | PyFloat f => Ok f
  end.

(** [a / b] on two ints: the correctly rounded quotient.  A zero numerator
    takes the sign of the divisor. *)
Definition int_truediv (a b : Z) : exc spec_float :=
  if b =? 0 then Raise ZeroDivisionError
  else if a =? 0 then Ok (S754_zero (b <? 0))
  else
    let '(q, e, l) := SFdiv_core_binary prec emax (Z.abs a) 0 (Z.abs b) 0 in
    checked (binary_round_aux prec emax (xorb (a <? 0) (b <? 0)) q e l).

Definition is_zero (f : spec_float) : bool :=
  match f with
  | S754_zero _ => true
  | _ => false
  end.

Definition float_truediv (x y : spec_float) : exc spec_float :=
  if is_zero y then Raise ZeroDivisionError else Ok (SFdiv prec emax x y).

(** The binary operators, with the usual coercion: two ints stay in [int]
    (except for [/]), anything else is computed in [float]. *)
Definition mul (x y : num) : exc num :=
  match x, y with
  | PyInt a, PyInt b => Ok (PyInt (a * b))
  | _, _ => a ← to_float x; b ← to_float y; Ok (PyFloat (SFmul prec emax a b))
  end.

Definition add (x y : num) : exc num :=
  match x, y with
  | PyInt a, PyInt b => Ok (PyInt (a + b))
  | _, _ => a ← to_float x; b ← to_float y; Ok (PyFloat (SFadd prec emax a b))
  end.

Definition truediv (x y : num) : exc num :=
  match x, y with
  | PyInt a, PyInt b => PyFloat <$> int_truediv a b
  | _, _ => a ← to_float x; b ← to_float y; PyFloat <$> float_truediv a b
  end.

(** The doubles that the literals [0.0], [0.003], [0.015] and [13.5]
    denote. *)
Definition f0_0 : spec_float := S754_zero false.
Definition f0_003 : spec_float := S754_finite false 6917529027641082 (-61).
Definition f0_015 : spec_float := S754_finite false 8646911284551352 (-59).
Definition f13_5 : spec_float := S754_finite false 7599824371187712 (-49).

End PyNum.

(** The arithmetic that [calculate_monthly_cost] asks of its arguments:
    integer literals, [*], [/] and [+].  Python resolves the operators on
    the run-time type of the operands; the two instances below are CPython's
    [int]/[float] and exact rational arithmetic. *)
Class Arith (N : Type) := {
  lit : Z → N;
  mul : N → N → exc N;
  truediv : N → N → exc N;
  add : N → N → exc N
}.

#[export] Instance py_arith : Arith PyNum.num := {|
  lit := PyNum.PyInt;
  mul := PyNum.mul;
  truediv := PyNum.truediv;
  add := PyNum.add
|}.

#[export] Instance exact_arith : Arith Q := {|
  lit := inject_Z;
  mul x y := Ok (x * y)%Q;
  truediv x y := if Qeq_bool y 0 then Raise ZeroDivisionError else Ok (x / y)%Q;
  add x y := Ok (x + y)%Q
|}.

(** ** The cost estimator *)

Definition calculate_monthly_cost {N : Type} `{Arith N}
    (requests_per_day avg_input_tokens avg_output_tokens
     input_price_per_1k output_price_per_1k : N) : exc N :=
  monthly_requests ← mul requests_per_day (lit 30);
  input_total ← mul monthly_requests avg_input_tokens;
  monthly_input_tokens ← truediv input_total (lit 1000);
  output_total ← mul monthly_requests avg_output_tokens;
  monthly_output_tokens ← truediv output_total (lit 1000);
  input_cost ← mul monthly_input_tokens input_price_per_1k;
  output_cost ← mul monthly_output_tokens output_price_per_1k;
  add input_cost output_cost.

(** ** Values, dict objects and the store *)

(** What goes over the wire: the JSON tree that the SDK serialises from the
    keyword arguments, and of which the response's content blocks are made. *)
Inductive json : Type :=
| JNull
| JNum (n : PyNum.num)
| JStr (s : string)
| JList (items : list json)
| JObj (fields : gmap string json).

(** Python values inside [converse].  A dict is an object in the store and
    a value only holds a reference to it, so that two holders of the same
    dict see each other's updates. *)
Definition loc := nat.

Inductive val : Type :=
| VNone
| VNum (n : PyNum.num)
| VStr (s : string)
| VList (items : list val)
| VRef (l : loc).

Definition store := list (gmap string val).

(** Computations over the store that may raise. *)
Definition M (A : Type) : Type := store → exc (A * store).

#[export] Instance M_ret : MRet M := λ A a h, Ok (a, h).
#[export] Instance M_bind : MBind M := λ A B f m h,
  match m h with
  | Ok (a, h') => f a h'
  | Raise e => Raise e
  end.

Definition lift {A : Type} (r : exc A) : M A := λ h, (., h) <$> r.

(** A dict display [{k1: v1, ...}] allocates a new object. *)
Definition new_dict (items : list (string * val)) : M loc :=
  λ h, Ok (length h, h ++ [list_to_map items]).

(** [d[k] = v] on the dict at [l]. *)
Definition set_item (l : loc) (k : string) (v : val) : M unit :=
  λ h, Ok (tt, alter <[k := v]> l h).

(** The tree that a value denotes in a store: references are followed, at
    most [n] deep. *)
Fixpoint reify (n : nat) (h : store) : val → option json :=
  match n with
  | O => λ _, None
  | S n' =>
      fix go (v : val) : option json :=
        match v with
        | VNone => Some JNull
        | VNum x => Some (JNum x)
        | VStr s => Some (JStr s)
        | VList items => JList <$> mapM go items
        | VRef l =>
            d ← h !! l;
            kvs ← mapM (λ kv, (kv.1,.) <$> reify n' h kv.2) (map_to_list d);
            Some (JObj (list_to_map kvs))
        end
  end.

(** ** The remote call *)

(** The part of a Converse response that [converse] reads:
    [response['output']['message']['content']], a sequence of blocks, each
    of them a dict.  The properties below are about replies that have this
    path and this shape; the record projection [content] stands for the
    three subscripts of line 78. *)
Record response : Type := Response {
  content : list (gmap string json)
}.

(** The remote service: a request tree in, a response or an exception out. *)
Definition client_t : Type := json → exc response.

(** The request that the dict at [params] denotes: the dict, and every
    dict it refers to, as the store has them at that moment. *)
Definition request_of (params : loc) (h : store) : option json :=
  reify (S (length h)) h (VRef params).

(** The call of [client.converse] on the unpacked dict at [params]. *)
Definition call (client : client_t) (params : loc) : M response :=
  λ h, match request_of params h with
       | Some request => (., h) <$> client request
       | None => Raise RecursionError
       end.

(** ** Reading a block *)

(** [k in d] and [d[k]] on a dict. *)
Definition has_key (k : string) (d : gmap string json) : bool :=
  bool_decide (is_Some (d !! k)).

Definition get_item (d : gmap string json) (k : string) : exc json :=
  match d !! k with
  | Some v => Ok v
  | None => Raise (KeyError k)
  end.

(** [l[0]] on a list. *)
Definition first {A : Type} (l : list A) : exc A :=
  match l !! 0%nat with
  | Some x => Ok x
  | None => Raise IndexError
  end.

(** The loop [for item in content: if 'text' in item: return item['text']].
    [Some r] when the loop body returned (or raised) [r], [None] when the
    loop ran to its end. *)
Fixpoint text_scan (items : list (gmap string json)) : option (exc json) :=
  match items with
  | [] => None
  | item :: rest =>
      if has_key "text" item then Some (get_item item "text")
      else text_scan rest
  end.

(** ** [converse] *)

(** Truth value of an optional string: [None] and [''] are false. *)
Definition truthy (s : option string) : bool :=
  match s with
  | None => false
  | Some EmptyString => false
  | Some _ => true
  end.

Definition is_not_none {A : Type} (o : option A) : bool :=
  match o with
  | None => false
  | Some _ => true
  end.

Definition of_str (o : option string) : val :=
  match o with
  | None => VNone
  | Some s => VStr s
  end.

Definition of_int (o : option Z) : val :=
  match o with
  | None => VNone
  | Some z => VNum (PyNum.PyInt z)
  end.

(** Lines 44 to 73: the keyword arguments of the remote call.  The dict
    [inference_config] is stored in [converse_params] by reference and
    receives its ["thinking"] entry afterwards.  [lower] is the builtin
    [str.lower], so that [lower model_id] reads [model_id.lower()]. *)
Definition build_params (lower : string → string)
    (model_id prompt system_prompt : string)
    (temperature : PyNum.num) (max_tokens : Z)
    (reasoning_effort : option string) (thinking_budget : option Z) : M loc :=
  inference_config ← new_dict [
    ("temperature", VNum temperature);
    ("maxTokens", VNum (PyNum.PyInt max_tokens))
  ];
  prompt_block ← new_dict [("text", VStr prompt)];
  message ← new_dict [
    ("role", VStr "user");
    ("content", VList [VRef prompt_block])
  ];
  system_block ← new_dict [("text", VStr system_prompt)];
  converse_params ← new_dict [
    ("modelId", VStr model_id);
    ("messages", VList [VRef message]);
    ("system", VList [VRef system_block]);
    ("inferenceConfig", VRef inference_config)
  ];
  (if (PyStr.contains "openai" (lower model_id)
       || PyStr.contains "gpt" (lower model_id))
      && truthy reasoning_effort
   then
     fields ← new_dict [("reasoning_effort", of_str reasoning_effort)];
     set_item converse_params "additionalModelRequestFields" (VRef fields)
   else mret tt);;
  (if PyStr.contains "claude" (lower model_id)
      && is_not_none thinking_budget
   then
     thinking ← new_dict [
       ("type", VStr "enabled");
       ("budget", of_int thinking_budget)
     ];
     set_item inference_config "thinking" (VRef thinking)
   else mret tt);;
  mret converse_params.

(** Lines 78 to 88: the answer text of a content sequence. *)
Definition extract_text (content : list (gmap string json)) : exc json :=
  match (if (1 <? length content)%nat then text_scan content else None) with
  | Some r => r
  | None => item ← first content; get_item item "text"
  end.

Definition converse (lower : string → string) (client : client_t)
    (model_id prompt system_prompt : string)
    (temperature : PyNum.num) (max_tokens : Z)
    (reasoning_effort : option string) (thinking_budget : option Z) : M json :=
  converse_params ← build_params lower model_id prompt system_prompt temperature
                      max_tokens reasoning_effort thinking_budget;
  response ← call client converse_params;
  lift (extract_text (content response)).

(** A call of [converse] from outside: the dicts it allocates are its own,
    so it starts from an empty store, and only its result is observed. *)
Definition run {A : Type} (m : M A) : exc A := fst <$> m [].

(** The request that a call of [converse] sends. *)
Definition converse_request (lower : string → string)
    (model_id prompt system_prompt : string)
    (temperature : PyNum.num) (max_tokens : Z)
    (reasoning_effort : option string) (thinking_budget : option Z) : exc json :=
  match build_params lower model_id prompt system_prompt temperature max_tokens
          reasoning_effort thinking_budget [] with
  | Ok (params, h) =>
      match request_of params h with
      | Some request => Ok request
      | None => Raise RecursionError
      end
  | Raise e => Raise e
  end.

(** Keyword arguments with a default: [None] is an argument left out. *)
Definition default_system_prompt : string := "You are a helpful assistant.".
Definition default_temperature : PyNum.num := PyNum.PyFloat PyNum.f0_0.
Definition default_max_tokens : Z := 2000.


Record kwargs : Type := Kwargs {
  kw_system_prompt : option string;
  kw_temperature : option PyNum.num;
  kw_max_tokens : option Z;
  kw_reasoning_effort : option string;
  kw_thinking_budget : option Z
}.

(** [converse(client, model_id, prompt, **kw)]: parameters left out are bound
    to their defaults ([None] for the last two). *)
Definition converse_call (lower : string → string) (client : client_t)
    (model_id prompt : string)
    (kw : kwargs) : M json :=
  converse lower client model_id prompt
    (default default_system_prompt (kw_system_prompt kw))
    (default default_temperature (kw_temperature kw))
    (default default_max_tokens (kw_max_tokens kw))
    (kw_reasoning_effort kw) (kw_thinking_budget kw).

Definition converse_call_request (lower : string → string)
    (model_id prompt : string) (kw : kwargs) : exc json :=
  converse_request lower model_id prompt
    (default default_system_prompt (kw_system_prompt kw))
    (default default_temperature (kw_temperature kw))
    (default default_max_tokens (kw_max_tokens kw))
    (kw_reasoning_effort kw) (kw_thinking_budget kw).

(** ** Vocabulary of the statements *)

(** A field of a JSON object. *)
Definition field (k : string) (j : json) : option json :=
  match j with
  | JObj o => o !! k
  | _ => None
  end.

(** The two model-family tests on the identifier. *)
Definition is_gpt (lower : string → string) (model_id : string) : bool :=
  PyStr.contains "openai" (lower model_id)
  || PyStr.contains "gpt" (lower model_id).

Definition is_claude (lower : string → string) (model_id : string) : bool :=
  PyStr.contains "claude" (lower model_id).

(** What the two extension rules let through. *)
Definition sent_effort (lower : string → string) (model_id : string)
    (reasoning_effort : option string) : option string :=
  if is_gpt lower model_id && truthy reasoning_effort then reasoning_effort else None.

Definition sent_budget (lower : string → string) (model_id : string)
    (thinking_budget : option Z) : option Z :=
  if is_claude lower model_id && is_not_none thinking_budget then thinking_budget else None.

Definition thinking_config (budget : Z) : json :=
  JObj {[ "type" := JStr "enabled"; "budget" := JNum (PyNum.PyInt budget) ]}.

Definition user_message (prompt : string) : json :=
  JObj {[ "role" := JStr "user";
          "content" := JList [JObj {[ "text" := JStr prompt ]}] ]}.

Definition text_block (s : string) : json := JObj {[ "text" := JStr s ]}.

Definition with_entry (k : string) (o : option json) (m : gmap string json) : gmap string json :=
  match o with
  | Some v => <[k := v]> m
  | None => m
  end.

Definition effort_fields (effort : string) : json :=
  JObj {[ "reasoning_effort" := JStr effort ]}.

(** The inference configuration and the request in closed form, given what
    the extension rules let through. *)
Definition inference_tree (temperature : PyNum.num) (max_tokens : Z)
    (budget : option Z) : json :=
  JObj (with_entry "thinking" (thinking_config <$> budget)
          {[ "temperature" := JNum temperature;
             "maxTokens" := JNum (PyNum.PyInt max_tokens) ]}).

Definition request_tree (model_id prompt system_prompt : string)
    (temperature : PyNum.num) (max_tokens : Z)
    (effort : option string) (budget : option Z) : json :=
  JObj (with_entry "additionalModelRequestFields" (effort_fields <$> effort)
          {[ "modelId" := JStr model_id;
             "messages" := JList [user_message prompt];
             "system" := JList [text_block system_prompt];
             "inferenceConfig" := inference_tree temperature max_tokens budget ]}).

(** A block without a text field. *)
Definition no_text (d : gmap string json) : Prop := d !! "text" = None.

(** An argument that, when it is an [int], is below [B] in magnitude; a
    [float] is any float, infinities and NaN included. *)
Definition int_below (B : Z) (x : PyNum.num) : Prop :=
  match x with
  | PyNum.PyInt z => Z.abs z < B
  | PyNum.PyFloat _ => True
  end.

(** ** Sample replies *)

(** A service that answers every request with the same content blocks. *)
Definition reply_with (blocks : list (gmap string json)) : client_t :=
  λ _, Ok (Response blocks).

Definition trace_then_answer : list (gmap string json) :=
  [ {[ "reasoningText" := JStr "trace" ]}; {[ "text" := JStr "answer" ]} ].

Definition two_text_blocks : list (gmap string json) :=
  [ {[ "text" := JStr "trace" ]}; {[ "text" := JStr "answer" ]} ].

Definition no_text_blocks : list (gmap string json) :=
  [ {[ "reasoningText" := JStr "trace" ]}; {[ "toolUse" := JStr "lookup" ]} ].

(** ** Vocabulary of the further properties *)

(** The keys of a JSON object. *)
Definition keys (j : json) : gset string :=
  match j with
  | JObj o => dom o
  | _ => ∅
  end.

(** A service that fails on every request. *)
Definition failing_with (e : exn) : client_t := λ _, Raise e.

(** [math.isfinite] and the sign bit of a float. *)
Definition is_finite (f : spec_float) : bool :=
  match f with
  | S754_zero _ | S754_finite _ _ _ => true
  | S754_infinity _ | S754_nan => false
  end.

Definition sign_bit (f : spec_float) : bool :=
  match f with
  | S754_zero s | S754_infinity s | S754_finite s _ _ => s
  | S754_nan => false
  end.

(** * Properties *)

(** ** Substrings *)

Section Strings.
Import PyStr.

Lemma prefix_cons (c c' : ascii) (n s : string) :
  String.prefix (String c n) (String c' s)
  = if Ascii.ascii_dec c c' then String.prefix n s else false.
Proof. reflexivity. Qed.

Lemma prefix_app (n post : string) : String.prefix n (n +:+ post) = true.
Proof.
  induction n as [|c n IH]; [by destruct post|].
  change (String c n +:+ post) with (String c (n +:+ post)).
  rewrite prefix_cons. destruct (Ascii.ascii_dec c c); [done|congruence].
Qed.

Lemma prefix_split (n s : string) :
  String.prefix n s = true → ∃ post, s = n +:+ post.
Proof.
  revert s. induction n as [|c n IH]; intros s H.
  - by exists s.
  - destruct s as [|c' s]; [done|]. rewrite prefix_cons in H.
    destruct (Ascii.ascii_dec c c') as [->|]; [|done].
    destruct (IH _ H) as [post ->]. by exists post.
Qed.

Lemma contains_cons (n : string) (c : ascii) (s : string) :
  contains n (String c s) = String.prefix n (String c s) || contains n s.
Proof. reflexivity. Qed.

Lemma contains_prefix (n s : string) :
  String.prefix n s = true → contains n s = true.
Proof.
  intros H. destruct s as [|c s].
  - change (contains n "") with (String.prefix n "" || false). by rewrite H.
  - by rewrite contains_cons, H.
Qed.

(** [contains] is the substring relation. *)
Lemma contains_spec (n s : string) :
  contains n s = true ↔ ∃ pre post, s = pre +:+ n +:+ post.
Proof.
  split.
  - induction s as [|c s IH]; intros H.
    + destruct n; [|done]. by exists "", "".
    + rewrite contains_cons in H. apply orb_true_iff in H as [H|H].
      * destruct (prefix_split _ _ H) as [post E]. by exists "", post.
      * destruct (IH H) as (pre & post & ->). by exists (String c pre), post.
  - intros (pre & post & ->). induction pre as [|c pre IH].
    + change ("" +:+ n +:+ post) with (n +:+ post).
      apply contains_prefix, prefix_app.
    + change (String c pre +:+ n +:+ post) with (String c (pre +:+ n +:+ post)).
      by rewrite contains_cons, IH, orb_true_r.
Qed.
End Strings.

(** ** The request *)

Lemma converse_request_tree lower model_id prompt system_prompt temperature max_tokens
    reasoning_effort thinking_budget :
  converse_request lower model_id prompt system_prompt temperature max_tokens
    reasoning_effort thinking_budget
  = Ok (request_tree model_id prompt system_prompt temperature max_tokens
          (sent_effort lower model_id reasoning_effort)
          (sent_budget lower model_id thinking_budget)).
Proof.
  unfold converse_request, build_params, sent_effort, sent_budget.
  change (PyStr.contains "openai" (lower model_id)
          || PyStr.contains "gpt" (lower model_id)) with (is_gpt lower model_id).
  change (PyStr.contains "claude" (lower model_id)) with (is_claude lower model_id).
  generalize (is_gpt lower model_id), (is_claude lower model_id).
  intros g c.
  destruct reasoning_effort as [[|a s]|], thinking_budget as [z|], g, c;
    vm_compute; reflexivity.
Qed.

(** [converse] sends [converse_request] and reads the answer off the reply. *)
Lemma run_converse lower client model_id prompt system_prompt temperature max_tokens
    reasoning_effort thinking_budget :
  run (converse lower client model_id prompt system_prompt temperature max_tokens
         reasoning_effort thinking_budget)
  = (request ← converse_request lower model_id prompt system_prompt temperature
                 max_tokens reasoning_effort thinking_budget;
     resp ← client request;
     extract_text (content resp)).
Proof.
  unfold run, converse, converse_request, call, lift, mbind, M_bind, exc_bind.
  destruct (build_params _ _ _ _ _ _ _ _ []) as [[params h]|e]; [|done].
  destruct (request_of params h) as [request|]; [|done].
  simpl. destruct (client request) as [resp|e]; [|done].
  simpl. by destruct (extract_text (content resp)).
Qed.

Lemma run_converse_reply lower client model_id prompt system_prompt temperature
    max_tokens reasoning_effort thinking_budget request resp :
  converse_request lower model_id prompt system_prompt temperature max_tokens
    reasoning_effort thinking_budget = Ok request →
  client request = Ok resp →
  run (converse lower client model_id prompt system_prompt temperature max_tokens
         reasoning_effort thinking_budget)
  = extract_text (content resp).
Proof.
  intros Hreq Hresp. rewrite run_converse, Hreq.
  unfold mbind, exc_bind. by rewrite Hresp.
Qed.

(** ** The scan *)

Lemma has_key_lookup k (d : gmap string json) :
  has_key k d = match d !! k with Some _ => true | None => false end.
Proof.
  unfold has_key. destruct (d !! k) as [v|] eqn:E.
  - apply bool_decide_eq_true. eauto.
  - apply bool_decide_eq_false. by intros [v Hv].
Qed.

Lemma text_scan_none (items : list (gmap string json)) :
  Forall no_text items → text_scan items = None.
Proof.
  induction 1 as [|d items Hd _ IH]; [done|].
  simpl. by rewrite has_key_lookup, Hd.
Qed.

Lemma text_scan_first (pre post : list (gmap string json)) d v :
  Forall no_text pre → d !! "text" = Some v →
  text_scan (pre ++ d :: post) = Some (Ok v).
Proof.
  intros Hpre Hd. induction Hpre as [|d' pre Hd' _ IH]; simpl.
  - unfold get_item. by rewrite has_key_lookup, Hd.
  - by rewrite has_key_lookup, Hd'.
Qed.

Lemma extract_text_single (d : gmap string json) :
  extract_text [d] = get_item d "text".
Proof. reflexivity. Qed.

Lemma extract_text_scan (items : list (gmap string json)) r :
  (1 < length items)%nat → text_scan items = Some r → extract_text items = r.
Proof.
  intros Hlen Hscan. unfold extract_text.
  apply Nat.ltb_lt in Hlen. by rewrite Hlen, Hscan.
Qed.

Lemma extract_text_fall_through (d : gmap string json) items :
  text_scan (d :: items) = None → extract_text (d :: items) = get_item d "text".
Proof. intros Hscan. unfold extract_text. rewrite Hscan. by destruct (_ <? _)%nat. Qed.

(** ** The answer text *)

Section Answer.
Context (lower : string → string) (client : client_t)
  (model_id prompt system_prompt : string)
  (temperature : PyNum.num) (max_tokens : Z)
  (reasoning_effort : option string) (thinking_budget : option Z).

(** C1: a one-element content sequence yields the text field of that
    element (a [KeyError] when it has none); a longer one yields the text
    of the first block, counting from index 0, that has a text field. *)
Theorem converse_returns_first_text request resp :
  converse_request lower model_id prompt system_prompt temperature max_tokens
    reasoning_effort thinking_budget = Ok request →
  client request = Ok resp →
  (∀ d, content resp = [d] →
        run (converse lower client model_id prompt system_prompt temperature
               max_tokens reasoning_effort thinking_budget)
        = match d !! "text" with
          | Some v => Ok v
          | None => Raise (KeyError "text")
          end)
  ∧ (∀ pre d post v,
        (1 < length (content resp))%nat →
        content resp = pre ++ d :: post →
        Forall no_text pre →
        d !! "text" = Some v →
        run (converse lower client model_id prompt system_prompt temperature
               max_tokens reasoning_effort thinking_budget)
        = Ok v).
Proof.
  intros Hreq Hresp. rewrite (run_converse_reply _ _ _ _ _ _ _ _ _ _ _ Hreq Hresp).
  split.
  - intros d ->. rewrite extract_text_single. done.
  - intros pre d post v Hlen Hc Hpre Hd. rewrite Hc in Hlen |- *.
    apply extract_text_scan; [done|]. by apply text_scan_first.
Qed.

(** C2, as the code has it: in a content sequence of more than one element
    the block returned is the first one with a text field, the element at
    index 0 included; a later block is returned only when every block
    before it, the first among them, has no text field. *)
Theorem converse_first_block_not_skipped request resp d0 rest :
  converse_request lower model_id prompt system_prompt temperature max_tokens
    reasoning_effort thinking_budget = Ok request →
  client request = Ok resp →
  content resp = d0 :: rest →
  rest ≠ [] →
  (∀ v, d0 !! "text" = Some v →
        run (converse lower client model_id prompt system_prompt temperature
               max_tokens reasoning_effort thinking_budget) = Ok v)
  ∧ (no_text d0 →
     ∀ pre d post v,
       rest = pre ++ d :: post →
       Forall no_text pre →
       d !! "text" = Some v →
       run (converse lower client model_id prompt system_prompt temperature
              max_tokens reasoning_effort thinking_budget)
       = Ok v).
Proof.
  intros Hreq Hresp Hc Hrest.
  rewrite (run_converse_reply _ _ _ _ _ _ _ _ _ _ _ Hreq Hresp), Hc.
  assert (1 < length (d0 :: rest))%nat as Hlen
    by (destruct rest; [done|simpl; lia]).
  split.
  - intros v Hd0. apply extract_text_scan; [done|].
    by apply (text_scan_first []).
  - intros Hd0 pre d post v -> Hpre Hd.
    apply extract_text_scan; [done|].
    apply (text_scan_first (d0 :: pre)); [by constructor|done].
Qed.

(** C7: an empty content sequence makes [converse] raise [IndexError]. *)
Theorem converse_empty_content request resp :
  converse_request lower model_id prompt system_prompt temperature max_tokens
    reasoning_effort thinking_budget = Ok request →
  client request = Ok resp →
  content resp = [] →
  run (converse lower client model_id prompt system_prompt temperature
         max_tokens reasoning_effort thinking_budget)
  = Raise IndexError.
Proof.
  intros Hreq Hresp Hc.
  by rewrite (run_converse_reply _ _ _ _ _ _ _ _ _ _ _ Hreq Hresp), Hc.
Qed.

(** C10: when the content sequence has more than one element and no block
    has a text field, the scan returns nothing and the read of the first
    element's text field raises [KeyError]. *)
Theorem converse_no_text_block request resp :
  converse_request lower model_id prompt system_prompt temperature max_tokens
    reasoning_effort thinking_budget = Ok request →
  client request = Ok resp →
  (1 < length (content resp))%nat →
  Forall no_text (content resp) →
  text_scan (content resp) = None
  ∧ run (converse lower client model_id prompt system_prompt temperature
           max_tokens reasoning_effort thinking_budget)
    = Raise (KeyError "text").
Proof.
  intros Hreq Hresp Hlen Hall.
  rewrite (run_converse_reply _ _ _ _ _ _ _ _ _ _ _ Hreq Hresp).
  pose proof (text_scan_none _ Hall) as Hscan. split; [done|].
  destruct (content resp) as [|d items]; [simpl in Hlen; lia|].
  rewrite (extract_text_fall_through _ _ Hscan).
  apply Forall_cons in Hall as [Hd _]. unfold get_item. by rewrite Hd.
Qed.
End Answer.

Lemma converse_returns_first_text_witness :
  run (converse PyStr.ascii_lower (reply_with trace_then_answer) "anthropic.claude-3-sonnet" "hi"
         default_system_prompt default_temperature default_max_tokens None None)
  = Ok (JStr "answer").
Proof.
  refine (proj2 (converse_returns_first_text
                   _ (reply_with trace_then_answer) _ _ _ _ _ _ _ _
                   (Response trace_then_answer)
                   (converse_request_tree _ _ _ _ _ _ _ _) eq_refl)
            [_] _ [] _ _ eq_refl _ eq_refl).
  - simpl. lia.
  - constructor; [reflexivity|constructor].
Defined.

(** C2 fails on the code: with two text-bearing blocks the text returned is
    that of the element at index 0, and of no later element. *)
Lemma converse_first_block_returned :
  (1 < length two_text_blocks)%nat
  ∧ run (converse PyStr.ascii_lower (reply_with two_text_blocks) "anthropic.claude-3-sonnet" "hi"
           default_system_prompt default_temperature default_max_tokens None None)
    = Ok (JStr "trace")
  ∧ ¬ ∃ (k : nat) d, k ≠ 0%nat ∧ two_text_blocks !! k = Some d
                     ∧ d !! "text" = Some (JStr "trace").
Proof.
  split; [simpl; lia|]. split.
  - rewrite run_converse, converse_request_tree. reflexivity.
  - intros (k & d & Hk & Hd & Ht).
    destruct k as [|[|k]]; [done| |done].
    injection Hd as <-. vm_compute in Ht. discriminate.
Qed.

Lemma converse_first_block_not_skipped_witness :
  run (converse PyStr.ascii_lower (reply_with trace_then_answer) "anthropic.claude-3-sonnet" "hi"
         default_system_prompt default_temperature default_max_tokens None None)
  = Ok (JStr "answer")
  ∧ run (converse PyStr.ascii_lower (reply_with two_text_blocks) "anthropic.claude-3-sonnet" "hi"
         default_system_prompt default_temperature default_max_tokens None None)
  = Ok (JStr "trace").
Proof.
  split.
  - refine (proj2 (converse_first_block_not_skipped
                     _ (reply_with trace_then_answer) _ _ _ _ _ _ _ _
                     (Response trace_then_answer) _ _
                     (converse_request_tree _ _ _ _ _ _ _ _) eq_refl eq_refl _)
              _ [] _ [] _ eq_refl _ eq_refl); [done|reflexivity|constructor].
  - refine (proj1 (converse_first_block_not_skipped
                     _ (reply_with two_text_blocks) _ _ _ _ _ _ _ _
                     (Response two_text_blocks) _ _
                     (converse_request_tree _ _ _ _ _ _ _ _) eq_refl eq_refl _)
              _ eq_refl); done.
Defined.

Lemma converse_empty_content_witness :
  run (converse PyStr.ascii_lower (reply_with []) "anthropic.claude-3-sonnet" "hi"
         default_system_prompt default_temperature default_max_tokens None None)
  = Raise IndexError.
Proof.
  exact (converse_empty_content _ (reply_with []) _ _ _ _ _ _ _ _ (Response [])
           (converse_request_tree _ _ _ _ _ _ _ _) eq_refl eq_refl).
Defined.

Lemma converse_no_text_block_witness :
  text_scan no_text_blocks = None
  ∧ run (converse PyStr.ascii_lower (reply_with no_text_blocks) "anthropic.claude-3-sonnet" "hi"
           default_system_prompt default_temperature default_max_tokens None None)
    = Raise (KeyError "text").
Proof.
  refine (converse_no_text_block _ (reply_with no_text_blocks) _ _ _ _ _ _ _ _
            (Response no_text_blocks)
            (converse_request_tree _ _ _ _ _ _ _ _) eq_refl _ _).
  - simpl. lia.
  - repeat constructor.
Defined.

(** ** The fields of the request *)

Lemma request_messages m p sp t mt eff bud :
  field "messages" (request_tree m p sp t mt eff bud) = Some (JList [user_message p]).
Proof. destruct eff; vm_compute; reflexivity. Qed.

Lemma request_system m p sp t mt eff bud :
  field "system" (request_tree m p sp t mt eff bud) = Some (JList [text_block sp]).
Proof. destruct eff; vm_compute; reflexivity. Qed.

Lemma request_inference m p sp t mt eff bud :
  field "inferenceConfig" (request_tree m p sp t mt eff bud)
  = Some (inference_tree t mt bud).
Proof. destruct eff, bud; vm_compute; reflexivity. Qed.

Lemma request_extension m p sp t mt eff bud :
  field "additionalModelRequestFields" (request_tree m p sp t mt eff bud)
  = effort_fields <$> eff.
Proof. destruct eff, bud; vm_compute; reflexivity. Qed.

Lemma inference_temperature t mt bud :
  field "temperature" (inference_tree t mt bud) = Some (JNum t).
Proof. destruct bud; vm_compute; reflexivity. Qed.

Lemma inference_max_tokens t mt bud :
  field "maxTokens" (inference_tree t mt bud) = Some (JNum (PyNum.PyInt mt)).
Proof. destruct bud; vm_compute; reflexivity. Qed.

Lemma inference_thinking t mt bud :
  field "thinking" (inference_tree t mt bud) = thinking_config <$> bud.
Proof. destruct bud; vm_compute; reflexivity. Qed.

Lemma effort_fields_effort s :
  field "reasoning_effort" (effort_fields s) = Some (JStr s).
Proof. vm_compute; reflexivity. Qed.

Lemma sent_budget_Some lower model_id thinking_budget z :
  sent_budget lower model_id thinking_budget = Some z
  ↔ is_claude lower model_id = true ∧ thinking_budget = Some z.
Proof.
  unfold sent_budget.
  destruct (is_claude lower model_id), thinking_budget; simpl;
    intuition congruence.
Qed.

Lemma sent_effort_Some lower model_id reasoning_effort s :
  sent_effort lower model_id reasoning_effort = Some s
  ↔ is_gpt lower model_id = true ∧ reasoning_effort = Some s ∧ s ≠ "".
Proof.
  unfold sent_effort.
  destruct (is_gpt lower model_id), reasoning_effort as [[|c r]|]; simpl;
    intuition congruence.
Qed.

Section Request.
Context (lower : string → string) (model_id prompt system_prompt : string)
  (temperature : PyNum.num) (max_tokens : Z)
  (reasoning_effort : option string) (thinking_budget : option Z).

(** C4: the inference configuration of the request has a ["thinking"]
    entry exactly when the lowercase identifier contains ["claude"] and a
    thinking budget was given (zero included); the entry is then
    [{type: "enabled", budget: <the budget>}], and without a budget there
    is none. *)
Theorem thinking_attached_iff :
  ∃ request config,
    converse_request lower model_id prompt system_prompt temperature max_tokens
      reasoning_effort thinking_budget = Ok request
    ∧ field "inferenceConfig" request = Some config
    ∧ (is_Some (field "thinking" config)
       ↔ PyStr.contains "claude" (lower model_id) = true
         ∧ is_Some thinking_budget)
    ∧ (∀ z, PyStr.contains "claude" (lower model_id) = true →
            thinking_budget = Some z →
            field "thinking" config = Some (thinking_config z))
    ∧ (thinking_budget = None → field "thinking" config = None).
Proof.
  eexists _, _. split; [apply converse_request_tree|].
  split; [apply request_inference|]. rewrite inference_thinking.
  fold (is_claude lower model_id). split; [|split].
  - rewrite fmap_is_Some. split.
    + intros [z Hz]. apply sent_budget_Some in Hz as [? ->]. eauto.
    + intros [Hc [z Hz]]. exists z. by apply sent_budget_Some.
  - intros z Hc Hz. by rewrite (proj2 (sent_budget_Some _ _ _ z)).
  - intros ->. unfold sent_budget. by rewrite andb_false_r.
Qed.

(** C5, as the code has it: when the lowercase identifier contains
    ["openai"] or ["gpt"] and a non-empty reasoning effort was given, the
    request has [additionalModelRequestFields.reasoning_effort] equal to
    it; when the reasoning effort is left out, or is the empty string, the
    request has no [additionalModelRequestFields] at all. *)
Theorem effort_attached :
  ∃ request,
    converse_request lower model_id prompt system_prompt temperature max_tokens
      reasoning_effort thinking_budget = Ok request
    ∧ (∀ s, PyStr.contains "openai" (lower model_id) = true
            ∨ PyStr.contains "gpt" (lower model_id) = true →
            reasoning_effort = Some s →
            s ≠ "" →
            field "additionalModelRequestFields" request
              ≫= field "reasoning_effort" = Some (JStr s))
    ∧ (reasoning_effort = None ∨ reasoning_effort = Some "" →
       field "additionalModelRequestFields" request = None).
Proof.
  eexists. split; [apply converse_request_tree|].
  rewrite request_extension. split.
  - intros s Hg Hs Hne.
    rewrite (proj2 (sent_effort_Some _ _ _ s)); [apply effort_fields_effort|].
    split; [|done]. unfold is_gpt. apply orb_true_iff. tauto.
  - unfold sent_effort. intros [-> | ->]; simpl; by rewrite andb_false_r.
Qed.

(** C6, as the code has it: when the lowercase identifier matches both
    tests, a non-empty reasoning effort and a thinking budget are given,
    the request has both the [reasoning_effort] field and the ["thinking"]
    entry. *)
Theorem both_extensions_attached s z :
  PyStr.contains "openai" (lower model_id) = true
  ∨ PyStr.contains "gpt" (lower model_id) = true →
  PyStr.contains "claude" (lower model_id) = true →
  reasoning_effort = Some s →
  s ≠ "" →
  thinking_budget = Some z →
  ∃ request config,
    converse_request lower model_id prompt system_prompt temperature max_tokens
      reasoning_effort thinking_budget = Ok request
    ∧ field "additionalModelRequestFields" request
        ≫= field "reasoning_effort" = Some (JStr s)
    ∧ field "inferenceConfig" request = Some config
    ∧ field "thinking" config = Some (thinking_config z).
Proof.
  intros Hg Hc Hs Hne Hz. eexists _, _.
  split; [apply converse_request_tree|].
  rewrite request_extension, request_inference, inference_thinking.
  rewrite (proj2 (sent_effort_Some _ _ _ s)), (proj2 (sent_budget_Some _ _ _ z)).
  - split; [apply effort_fields_effort|done].
  - done.
  - split; [|done]. unfold is_gpt. apply orb_true_iff. tauto.
Qed.
End Request.

(** C9: the request has exactly one message, of role ["user"] and with the
    prompt as its only text block, exactly one system block, holding the
    system prompt, and an inference configuration whose temperature and
    maximum number of tokens are the values given, or [0.0] and [2000] when
    left out. *)
Theorem request_always_has_base lower model_id prompt kw :
  ∃ request config,
    converse_call_request lower model_id prompt kw = Ok request
    ∧ field "messages" request
      = Some (JList [JObj {[ "role" := JStr "user";
                             "content" := JList [JObj {[ "text" := JStr prompt ]}] ]}])
    ∧ field "system" request
      = Some (JList [JObj {[ "text" :=
                JStr match kw_system_prompt kw with
                     | Some s => s
                     | None => "You are a helpful assistant."
                     end ]}])
    ∧ field "inferenceConfig" request = Some config
    ∧ field "temperature" config
      = Some (JNum match kw_temperature kw with
                   | Some t => t
                   | None => PyNum.PyFloat (S754_zero false)
                   end)
    ∧ field "maxTokens" config
      = Some (JNum (PyNum.PyInt match kw_max_tokens kw with
                                | Some n => n
                                | None => 2000
                                end)).
Proof.
  unfold converse_call_request. eexists _, _.
  split; [apply converse_request_tree|].
  rewrite request_messages, request_system, request_inference,
    inference_temperature, inference_max_tokens.
  destruct kw as [[sp|] [t|] [mt|] re tb]; repeat split; reflexivity.
Qed.

Lemma thinking_attached_iff_witness :
  ∃ request config,
    converse_request PyStr.ascii_lower "anthropic.claude-3-7-sonnet" "hi" default_system_prompt
      default_temperature default_max_tokens None (Some 0) = Ok request
    ∧ field "inferenceConfig" request = Some config
    ∧ field "thinking" config = Some (thinking_config 0).
Proof.
  destruct (thinking_attached_iff PyStr.ascii_lower "anthropic.claude-3-7-sonnet" "hi"
              default_system_prompt default_temperature default_max_tokens
              None (Some 0)) as (request & config & Hreq & Hcfg & _ & Hz & _).
  exists request, config. split; [exact Hreq|]. split; [exact Hcfg|].
  apply Hz; reflexivity.
Defined.

(** C5 fails on the code: an empty reasoning effort given to a GPT model is
    not attached. *)
Lemma empty_effort_not_attached :
  PyStr.contains "gpt" (PyStr.ascii_lower "openai.gpt-oss-120b") = true
  ∧ ∃ request,
      converse_request PyStr.ascii_lower "openai.gpt-oss-120b" "hi" default_system_prompt
        default_temperature default_max_tokens (Some "") None = Ok request
      ∧ field "additionalModelRequestFields" request = None.
Proof.
  split; [reflexivity|]. eexists. split; [apply converse_request_tree|].
  vm_compute. reflexivity.
Qed.

Lemma effort_attached_witness :
  ∃ request,
    converse_request PyStr.ascii_lower "openai.gpt-oss-120b" "hi" default_system_prompt
      default_temperature default_max_tokens (Some "high") None = Ok request
    ∧ field "additionalModelRequestFields" request
        ≫= field "reasoning_effort" = Some (JStr "high").
Proof.
  destruct (effort_attached PyStr.ascii_lower "openai.gpt-oss-120b" "hi" default_system_prompt
              default_temperature default_max_tokens (Some "high") None)
    as (request & Hreq & Hs & _).
  exists request. split; [exact Hreq|].
  apply Hs; [right; reflexivity|reflexivity|discriminate].
Defined.

(** C6 fails on the code: with an identifier that matches both tests, an
    empty reasoning effort and a budget, only the ["thinking"] entry is
    attached. *)
Lemma empty_effort_thinking_only :
  PyStr.contains "gpt" (PyStr.ascii_lower "claude-gpt") = true
  ∧ PyStr.contains "claude" (PyStr.ascii_lower "claude-gpt") = true
  ∧ ∃ request config,
      converse_request PyStr.ascii_lower "claude-gpt" "hi" default_system_prompt
        default_temperature default_max_tokens (Some "") (Some 1024) = Ok request
      ∧ field "additionalModelRequestFields" request = None
      ∧ field "inferenceConfig" request = Some config
      ∧ field "thinking" config = Some (thinking_config 1024).
Proof.
  split; [reflexivity|]. split; [reflexivity|]. eexists _, _.
  split; [apply converse_request_tree|].
  split; [vm_compute; reflexivity|]. split; [apply request_inference|].
  vm_compute. reflexivity.
Qed.

Lemma both_extensions_attached_witness :
  ∃ request config,
    converse_request PyStr.ascii_lower "claude-gpt" "hi" default_system_prompt
      default_temperature default_max_tokens (Some "high") (Some 1024) = Ok request
    ∧ field "additionalModelRequestFields" request
        ≫= field "reasoning_effort" = Some (JStr "high")
    ∧ field "inferenceConfig" request = Some config
    ∧ field "thinking" config = Some (thinking_config 1024).
Proof.
  apply (both_extensions_attached PyStr.ascii_lower "claude-gpt" "hi" default_system_prompt
           default_temperature default_max_tokens (Some "high") (Some 1024)
           "high" 1024);
    [right; reflexivity|reflexivity|reflexivity|discriminate|reflexivity].
Defined.

(** ** Binary64 rounding stays finite *)

Section Binary64.
Import PyNum.

Lemma digits2_pos_size p : digits2_pos p = Pos.size p.
Proof. induction p; simpl; congruence. Qed.

Lemma Zdigits2_log2 m : 0 < m → Zdigits2 m = Z.succ (Z.log2 m).
Proof.
destruct m as [|p|p]; [lia| |lia]. intros _. simpl.
destruct p as [p|p|]; simpl; rewrite ?digits2_pos_size; lia.
Qed.

Lemma Zdigits2_nonneg m : 0 ≤ Zdigits2 m.
Proof. destruct m; simpl; lia. Qed.

Lemma Zdigits2_mono a b : 0 ≤ a ≤ b → Zdigits2 a ≤ Zdigits2 b.
Proof.
intros [Ha Hab]. destruct (Z.eq_dec a 0) as [->|]; [apply Zdigits2_nonneg|].
rewrite !Zdigits2_log2 by lia. pose proof (Z.log2_le_mono a b Hab). lia.
Qed.

Lemma Zdigits2_succ a : 0 ≤ a → Zdigits2 (a + 1) ≤ Zdigits2 a + 1.
Proof.
intros Ha. destruct (Z.eq_dec a 0) as [->|]; [by vm_compute|].
rewrite !Zdigits2_log2 by lia. pose proof (Z.log2_succ_le a) as H.
rewrite <- Z.add_1_r in H. lia.
Qed.

Lemma Zdigits2_shiftl a s : 0 < a → 0 ≤ s → Zdigits2 (Z.shiftl a s) = Zdigits2 a + s.
Proof.
intros Ha Hs.
assert (0 < Z.shiftl a s) by (rewrite Z.shiftl_mul_pow2 by lia; nia).
rewrite !Zdigits2_log2 by lia. rewrite Z.log2_shiftl by lia. lia.
Qed.

Lemma Zdigits2_shiftr a n :
0 ≤ a → 0 ≤ n → Zdigits2 (Z.shiftr a n) + n ≤ Z.max (Zdigits2 a) n.
Proof.
intros Ha Hn. pose proof (Z.shiftr_nonneg a n) as [_ Hs]. specialize (Hs Ha).
destruct (Z.eq_dec (Z.shiftr a n) 0) as [->|Hne]; [simpl; lia|].
assert (0 < a) by (destruct (Z.eq_dec a 0) as [->|]; [by rewrite Z.shiftr_0_l in Hne|lia]).
rewrite !Zdigits2_log2 by lia. rewrite Z.log2_shiftr by lia.
assert (n ≤ Z.log2 a); [|lia].
destruct (Z.le_gt_cases n (Z.log2 a)) as [|Hlt]; [done|].
exfalso. apply Hne. apply Z.shiftr_eq_0; lia.
Qed.

Lemma Zdigits2_lt_pow2 a k : 0 ≤ a → 0 ≤ k → a < 2 ^ k → Zdigits2 a ≤ k.
Proof.
intros Ha Hk Hlt. destruct (Z.eq_dec a 0) as [->|]; [simpl; lia|].
rewrite Zdigits2_log2 by lia. apply Z.log2_lt_pow2 in Hlt; lia.
Qed.

Lemma shr_1_m mrs : 0 ≤ shr_m mrs → shr_m (shr_1 mrs) = Z.div2 (shr_m mrs).
Proof. destruct mrs as [[|[p|p|]|p] r s]; simpl; (done || lia). Qed.

Lemma iter_shr_1_m p mrs :
0 ≤ shr_m mrs → shr_m (SpecFloat.iter_pos shr_1 p mrs) = Z.shiftr (shr_m mrs) (Zpos p).
Proof.
revert mrs. induction p as [p IH|p IH|]; intros mrs Hm; simpl SpecFloat.iter_pos.
- assert (0 ≤ shr_m (shr_1 mrs)) by (rewrite shr_1_m by done; by apply Z.div2_nonneg).
  rewrite IH, IH, shr_1_m, Z.div2_spec, !Z.shiftr_shiftr by (rewrite ?IH; try apply Z.shiftr_nonneg; lia).
  f_equal. lia.
- rewrite IH, IH, !Z.shiftr_shiftr by (rewrite ?IH; try apply Z.shiftr_nonneg; lia).
  f_equal. lia.
- rewrite shr_1_m, Z.div2_spec by done. done.
Qed.

Lemma fexp_binary64 e : fexp prec emax e = Z.max (e - 53) (-1074).
Proof. reflexivity. Qed.

Lemma shr_record_of_loc_m m l : shr_m (shr_record_of_loc m l) = m.
Proof. by destruct l as [|[]]. Qed.

(** One alignment step keeps the mantissa non-negative, the exponent within
  the format and the magnitude below [2 ^ B]. *)
Lemma shr_fexp_bound m e l B :
0 ≤ m → e ≤ 971 → Zdigits2 m + e ≤ B → -1074 ≤ B ≤ 1024 →
0 ≤ shr_m (shr_fexp prec emax m e l).1
∧ (shr_fexp prec emax m e l).2 ≤ 971
∧ Zdigits2 (shr_m (shr_fexp prec emax m e l).1) + (shr_fexp prec emax m e l).2 ≤ B.
Proof.
intros Hm He HB HB'. unfold shr_fexp, shr. rewrite fexp_binary64.
destruct (Z.max (Zdigits2 m + e - 53) (-1074) - e) as [|p|p] eqn:Hn; simpl;
  rewrite ?shr_record_of_loc_m; [lia| |lia].
rewrite iter_shr_1_m by (rewrite shr_record_of_loc_m; lia).
rewrite shr_record_of_loc_m.
pose proof (Zdigits2_shiftr m (Z.pos p) Hm ltac:(lia)).
pose proof (Z.shiftr_nonneg m (Z.pos p)). lia.
Qed.

Lemma round_nearest_even_bounds m l :
m ≤ round_nearest_even m l ≤ m + 1.
Proof. destruct l as [|[]]; simpl; try destruct (Z.even m); lia. Qed.

(** Rounding a magnitude below [2 ^ 1023] never overflows. *)
Lemma binary_round_aux_finite sx mx ex lx :
0 ≤ mx → ex ≤ 971 → Zdigits2 mx + ex ≤ 1023 →
∃ f, checked (binary_round_aux prec emax sx mx ex lx) = Ok f.
Proof.
intros Hm He HB. unfold binary_round_aux.
pose proof (shr_fexp_bound mx ex lx 1023 Hm He HB ltac:(lia)) as (H1 & H2 & H3).
destruct (shr_fexp prec emax mx ex lx) as [mrs' e']. simpl in H1, H2, H3.
pose proof (round_nearest_even_bounds (shr_m mrs') (loc_of_shr_record mrs')) as Hr.
set (m1 := round_nearest_even _ _) in *.
assert (Zdigits2 m1 ≤ Zdigits2 (shr_m mrs') + 1) as Hd.
{ etrans; [apply (Zdigits2_mono m1 (shr_m mrs' + 1)); lia|].
  by apply Zdigits2_succ. }
pose proof (shr_fexp_bound m1 e' loc_Exact 1024 ltac:(lia) H2 ltac:(lia) ltac:(lia))
  as (H4 & H5 & _).
destruct (shr_fexp prec emax m1 e' loc_Exact) as [mrs'' e'']. simpl in H4, H5.
destruct (shr_m mrs'') as [|m|m]; [by eexists| |lia].
change (emax - prec) with 971. apply Z.leb_le in H5. rewrite H5. by eexists.
Qed.

Lemma Zpos_iter_xO m d : Z.pos (Pos.iter xO m d) = Z.shiftl (Z.pos m) (Z.pos d).
Proof. simpl. by apply Pos.iter_swap_gen. Qed.

(** [float(z)] is defined for every [z] below [2 ^ 1023] in magnitude. *)
Lemma int_to_float_ok z : Z.abs z < 2 ^ 1023 → ∃ f, int_to_float z = Ok f.
Proof.
intros Hz. unfold int_to_float, binary_normalize, binary_round.
assert (∀ sx m, Z.pos m < 2 ^ 1023 → ∃ f,
          checked (let '(mz, ez) :=
                     shl_align m 0 (fexp prec emax (Z.pos (digits2_pos m) + 0)) in
                   binary_round_aux prec emax sx (Z.pos mz) ez loc_Exact) = Ok f)
  as Hpos.
{ intros sx m Hm. unfold shl_align. rewrite fexp_binary64.
  pose proof (Zdigits2_lt_pow2 (Z.pos m) 1023 ltac:(lia) ltac:(lia) Hm) as Hd.
  change (Zdigits2 (Z.pos m)) with (Z.pos (digits2_pos m)) in Hd.
  destruct (Z.max (Z.pos (digits2_pos m) + 0 - 53) (-1074) - 0) as [|d|d] eqn:Hs.
  - apply binary_round_aux_finite; simpl; lia.
  - apply binary_round_aux_finite; simpl; lia.
  - apply binary_round_aux_finite; [lia|lia|].
    rewrite Zpos_iter_xO, Zdigits2_shiftl by lia. simpl Zdigits2. lia. }
destruct z as [|m|m]; [by eexists| |]; apply Hpos; lia.
Qed.

(** [a / b] on ints is defined whenever [b] is not zero and [a] is below
  [2 ^ 1023] in magnitude. *)
Lemma int_truediv_ok a b :
b ≠ 0 → Z.abs a < 2 ^ 1023 → ∃ f, int_truediv a b = Ok f.
Proof.
intros Hb Ha. unfold int_truediv.
destruct (Z.eqb_spec b 0) as [|_]; [done|].
destruct (Z.eqb_spec a 0) as [|Ha0]; [by eexists|].
unfold SFdiv_core_binary. rewrite fexp_binary64.
set (e' := Z.min _ _). set (s := 0 - 0 - e').
assert (e' ≤ 0) by (subst e'; lia).
set (m' := match s with Z0 => _ | Z.pos _ => _ | Z.neg _ => _ end).
assert (m' = Z.shiftl (Z.abs a) s) as Hm'.
{ subst m'. destruct s eqn:Hs; [by rewrite Z.shiftl_0_r|done|lia]. }
pose proof (Z_div_mod m' (Z.abs b) ltac:(lia)) as Hdiv.
destruct (Z.div_eucl m' (Z.abs b)) as [q r]. destruct Hdiv as [Hq Hr].
assert (0 < m') by (rewrite Hm', Z.shiftl_mul_pow2 by lia; nia).
assert (0 ≤ q ≤ m') by nia.
apply binary_round_aux_finite; [lia|lia|].
pose proof (Zdigits2_mono q m' ltac:(lia)).
pose proof (Zdigits2_lt_pow2 (Z.abs a) 1023 ltac:(lia) ltac:(lia) Ha).
rewrite Hm', Zdigits2_shiftl in * by lia. lia.
Qed.
End Binary64.

Section Cost.

Lemma to_float_ok x : int_below (2 ^ 1023) x → ∃ f, PyNum.to_float x = Ok f.
Proof. destruct x as [z|f]; simpl; [apply int_to_float_ok|by eexists]. Qed.

Lemma mul_ok B1 B2 x y :
int_below B1 x → int_below B2 y → B1 ≤ 2 ^ 1023 → B2 ≤ 2 ^ 1023 →
∃ v, PyNum.mul x y = Ok v ∧ int_below (B1 * B2) v.
Proof.
intros Hx Hy H1 H2.
destruct x as [a|f], y as [b|g]; simpl in *.
- eexists. split; [done|]. simpl. rewrite Z.abs_mul.
  apply Z.mul_lt_mono_nonneg; lia.
- destruct (int_to_float_ok a ltac:(lia)) as [f' ->]. by eexists.
- destruct (int_to_float_ok b ltac:(lia)) as [g' ->]. by eexists.
- by eexists.
Qed.

Lemma mul_float_ok f y :
int_below (2 ^ 1023) y → ∃ g, PyNum.mul (PyNum.PyFloat f) y = Ok (PyNum.PyFloat g).
Proof.
intros Hy. destruct y as [b|g]; simpl in *; [|by eexists].
destruct (int_to_float_ok b Hy) as [g' ->]. by eexists.
Qed.

Lemma truediv_1000_ok x :
int_below (2 ^ 1023) x → ∃ f, PyNum.truediv x (PyNum.PyInt 1000) = Ok (PyNum.PyFloat f).
Proof.
intros Hx. destruct x as [a|f]; simpl in *.
- destruct (int_truediv_ok a 1000 ltac:(lia) Hx) as [f ->]. by eexists.
- by eexists.
Qed.

(** C8, as the code has it: whatever the signs, and zeros included,
  [calculate_monthly_cost] returns a float without raising on every input
  whose integer arguments are below [2 ^ 500] in magnitude; its float
  arguments may be any float. *)
Theorem cost_total_below_bound r i o p_in p_out :
int_below (2 ^ 500) r → int_below (2 ^ 500) i → int_below (2 ^ 500) o →
int_below (2 ^ 500) p_in → int_below (2 ^ 500) p_out →
∃ f, calculate_monthly_cost r i o p_in p_out = Ok (PyNum.PyFloat f).
Proof.
intros Hr Hi Ho Hpi Hpo. unfold calculate_monthly_cost.
cbn [mul lit truediv add py_arith].
assert (2 ^ 500 ≤ 2 ^ 1023) as Hle by (by vm_compute).
assert (∀ x, int_below (2 ^ 500) x → int_below (2 ^ 1023) x) as Hweak
  by (intros [z|f]; simpl; lia).
destruct (mul_ok (2 ^ 500) 31 r (PyNum.PyInt 30) Hr ltac:(simpl; lia) Hle
            ltac:(by vm_compute)) as (requests & -> & Hreq).
assert (2 ^ 500 * 31 ≤ 2 ^ 1023) as Hle' by (by vm_compute).
assert (∀ x, int_below (2 ^ 500 * 31 * 2 ^ 500) x → int_below (2 ^ 1023) x)
  as Hweak'.
{ assert (2 ^ 500 * 31 * 2 ^ 500 ≤ 2 ^ 1023) by (by vm_compute).
  intros [z|f]; simpl; lia. }
cbn [mbind exc_bind].
destruct (mul_ok _ _ requests i Hreq Hi Hle' Hle) as (t_in & -> & Hin).
cbn [mbind exc_bind].
destruct (truediv_1000_ok t_in (Hweak' _ Hin)) as (tok_in & ->).
cbn [mbind exc_bind].
destruct (mul_ok _ _ requests o Hreq Ho Hle' Hle) as (t_out & -> & Hout).
cbn [mbind exc_bind].
destruct (truediv_1000_ok t_out (Hweak' _ Hout)) as (tok_out & ->).
cbn [mbind exc_bind].
destruct (mul_float_ok tok_in p_in (Hweak _ Hpi)) as (c_in & ->).
cbn [mbind exc_bind].
destruct (mul_float_ok tok_out p_out (Hweak _ Hpo)) as (c_out & ->).
cbn [mbind exc_bind]. by eexists.
Qed.
End Cost.

(** The float constants are the doubles nearest to their decimals. *)
Example f0_003_nearest : PyNum.int_truediv 3 1000 = Ok PyNum.f0_003.
Proof. reflexivity. Qed.

Example f0_015_nearest : PyNum.int_truediv 15 1000 = Ok PyNum.f0_015.
Proof. reflexivity. Qed.

Example f13_5_exact : PyNum.int_truediv 27 2 = Ok PyNum.f13_5.
Proof. reflexivity. Qed.

(** The same call in CPython's arithmetic: the two roundings of the prices
    cancel and the result is the double [13.5]. *)
Example cost_example_binary64 :
  calculate_monthly_cost (PyNum.PyInt 100) (PyNum.PyInt 500) (PyNum.PyInt 200)
    (PyNum.PyFloat PyNum.f0_003) (PyNum.PyFloat PyNum.f0_015)
  = Ok (PyNum.PyFloat PyNum.f13_5).
Proof. vm_compute. reflexivity. Qed.

(** C3: in exact arithmetic the cost is
    [(r*30*i/1000)*pi + (r*30*o/1000)*po]; it is zero when there are no
    requests, negative for positive usage at negative prices, and [13.5] on
    the documented example. *)
Theorem cost_formula_exact :
  (∀ r i o p_in p_out : Q,
     calculate_monthly_cost r i o p_in p_out
     = Ok ((r * 30 * i / 1000) * p_in + (r * 30 * o / 1000) * p_out)%Q)
  ∧ (∀ i o p_in p_out : Q,
       ∃ v, calculate_monthly_cost 0%Q i o p_in p_out = Ok v ∧ (v == 0)%Q)
  ∧ (∀ r i o p_in p_out : Q,
       (0 < r)%Q → (0 < i)%Q → (0 < o)%Q → (p_in < 0)%Q → (p_out < 0)%Q →
       ∃ v, calculate_monthly_cost r i o p_in p_out = Ok v ∧ (v < 0)%Q)
  ∧ (∃ v, calculate_monthly_cost 100%Q 500%Q 200%Q 0.003%Q 0.015%Q = Ok v
          ∧ (v == 13.5)%Q).
Proof.
  assert (∀ r i o p_in p_out : Q,
            calculate_monthly_cost r i o p_in p_out
            = Ok ((r * 30 * i / 1000) * p_in + (r * 30 * o / 1000) * p_out)%Q)
    as Heq by reflexivity.
  split; [exact Heq|]. split; [|split].
  - intros i o p_in p_out. eexists. split; [apply Heq|]. field.
  - intros r i o p_in p_out Hr Hi Ho Hpi Hpo. eexists. split; [apply Heq|].
    assert (0 < r * 30 * i / 1000)%Q as Hin.
    { apply Qlt_shift_div_l; [reflexivity|].
      rewrite Qmult_0_l. repeat apply Qmult_lt_0_compat; done. }
    assert (0 < r * 30 * o / 1000)%Q as Hout.
    { apply Qlt_shift_div_l; [reflexivity|].
      rewrite Qmult_0_l. repeat apply Qmult_lt_0_compat; done. }
    nra.
  - eexists. split; [apply Heq|]. reflexivity.
Qed.

Lemma cost_formula_exact_witness :
  ∃ v, calculate_monthly_cost 100%Q 500%Q 200%Q (-0.003)%Q (-0.015)%Q = Ok v
       ∧ (v < 0)%Q.
Proof.
  apply (proj1 (proj2 (proj2 cost_formula_exact))); reflexivity.
Defined.

(** C8 fails on the code: an [int] count of requests too large for a
    double makes the division by 1000 raise. *)
Lemma cost_overflows :
  calculate_monthly_cost (PyNum.PyInt (10 ^ 400)) (PyNum.PyInt 500)
    (PyNum.PyInt 200) (PyNum.PyFloat PyNum.f0_003) (PyNum.PyFloat PyNum.f0_015)
  = Raise OverflowError.
Proof. vm_compute. reflexivity. Qed.

Lemma cost_total_below_bound_witness :
  ∃ f, calculate_monthly_cost (PyNum.PyInt (-100)) (PyNum.PyInt 0)
         (PyNum.PyInt 200) (PyNum.PyFloat (SFopp PyNum.f0_003))
         (PyNum.PyFloat (S754_infinity true))
       = Ok (PyNum.PyFloat f).
Proof.
  apply cost_total_below_bound; simpl; try exact I; by vm_compute.
Defined.

(** * Further properties *)

(** ** Outcomes of the extraction *)

Lemma text_scan_some (items : list (gmap string json)) r :
  text_scan items = Some r →
  ∃ pre d post v,
    items = pre ++ d :: post ∧ Forall no_text pre ∧ d !! "text" = Some v
    ∧ r = Ok v.
Proof.
  induction items as [|d items IH]; [done|].
  simpl. rewrite has_key_lookup. unfold get_item.
  destruct (d !! "text") as [v|] eqn:Hd.
  - intros [= <-]. by exists [], d, items, v.
  - intros (pre & d' & post & v & -> & Hpre & Hd' & ->)%IH.
    exists (d :: pre), d', post, v. repeat split; [by constructor|done].
Qed.

(** The three outcomes of the extraction, on any content sequence. *)
Lemma extract_text_cases (items : list (gmap string json)) :
  (items = [] ∧ extract_text items = Raise IndexError)
  ∨ (items ≠ [] ∧ Forall no_text items
     ∧ extract_text items = Raise (KeyError "text"))
  ∨ (∃ pre d post v,
       items = pre ++ d :: post ∧ Forall no_text pre ∧ d !! "text" = Some v
       ∧ extract_text items = Ok v).
Proof.
  destruct items as [|d0 [|d1 rest]].
  - by left.
  - rewrite extract_text_single. unfold get_item.
    destruct (d0 !! "text") as [v|] eqn:Hd.
    + right; right. by exists [], d0, [], v.
    + right; left. repeat split; [done|by repeat constructor].
  - destruct (text_scan (d0 :: d1 :: rest)) as [r|] eqn:Hscan.
    + right; right.
      destruct (text_scan_some _ _ Hscan) as (pre & d & post & v & E & Hpre & Hd & ->).
      exists pre, d, post, v. repeat split; [done..|].
      apply extract_text_scan; [simpl; lia|done].
    + right; left. split; [done|].
      assert (Forall no_text (d0 :: d1 :: rest)) as Hall.
      { clear -Hscan. induction (d0 :: d1 :: rest) as [|d l IH]; [constructor|].
        simpl in Hscan. rewrite has_key_lookup in Hscan.
        destruct (d !! "text") eqn:Hd; [done|]. constructor; auto. }
      split; [done|]. rewrite (extract_text_fall_through _ _ Hscan).
      apply Forall_cons in Hall as [Hd _]. unfold get_item. by rewrite Hd.
Qed.

(** The first text-bearing block of a sequence is unique. *)
Lemma first_text_unique (pre pre' post post' : list (gmap string json)) d d' v v' :
  pre ++ d :: post = pre' ++ d' :: post' →
  Forall no_text pre → d !! "text" = Some v →
  Forall no_text pre' → d' !! "text" = Some v' →
  v = v'.
Proof.
  revert pre'. induction pre as [|x pre IH]; intros [|x' pre'] E Hpre Hd Hpre' Hd';
    simplify_eq/=.
  - done.
  - apply Forall_cons in Hpre' as [Hx _]. unfold no_text in Hx. congruence.
  - apply Forall_cons in Hpre as [Hx _]. unfold no_text in Hx. congruence.
  - apply Forall_cons in Hpre as [_ Hpre]. apply Forall_cons in Hpre' as [_ Hpre'].
    by eapply IH.
Qed.

Lemma no_text_split (pre post : list (gmap string json)) d v :
  Forall no_text (pre ++ d :: post) → d !! "text" = Some v → False.
Proof.
  intros Hall Hd. apply Forall_app in Hall as [_ Hall].
  apply Forall_cons in Hall as [Hx _]. unfold no_text in Hx. congruence.
Qed.

Lemma extract_text_Ok_iff (items : list (gmap string json)) v :
  extract_text items = Ok v
  ↔ ∃ pre d post,
      items = pre ++ d :: post ∧ Forall no_text pre ∧ d !! "text" = Some v.
Proof.
  destruct (extract_text_cases items)
    as [[-> E]|[(Hne & Hall & E)|(pre & d & post & w & -> & Hpre & Hd & E)]];
    rewrite E; split; try done.
  - intros (pre & d & post & E' & _). by destruct pre.
  - intros (pre & d & post & -> & _ & Hd). by destruct (no_text_split _ _ _ _ Hall Hd).
  - intros [= <-]. by exists pre, d, post.
  - intros (pre' & d' & post' & E' & Hpre' & Hd'). f_equal.
    by eapply first_text_unique.
Qed.

Lemma extract_text_IndexError_iff (items : list (gmap string json)) :
  extract_text items = Raise IndexError ↔ items = [].
Proof.
  destruct (extract_text_cases items)
    as [[-> E]|[(Hne & Hall & E)|(pre & d & post & w & -> & Hpre & Hd & E)]];
    rewrite E; split; try done.
  by destruct pre.
Qed.

Lemma extract_text_KeyError_iff (items : list (gmap string json)) :
  extract_text items = Raise (KeyError "text")
  ↔ items ≠ [] ∧ Forall no_text items.
Proof.
  destruct (extract_text_cases items)
    as [[-> E]|[(Hne & Hall & E)|(pre & d & post & w & -> & Hpre & Hd & E)]];
    rewrite E; split; try done.
  - by intros [? _].
  - intros [_ Hall]. by destruct (no_text_split _ _ _ _ Hall Hd).
Qed.

Lemma extract_text_raises (items : list (gmap string json)) e :
  extract_text items = Raise e → e = IndexError ∨ e = KeyError "text".
Proof.
  destruct (extract_text_cases items)
    as [[-> E]|[(Hne & Hall & E)|(pre & d & post & w & -> & Hpre & Hd & E)]];
    rewrite E; intros [= <-]; auto.
Qed.

Section Outcomes.
Context (lower : string → string) (client : client_t)
  (model_id prompt system_prompt : string)
  (temperature : PyNum.num) (max_tokens : Z)
  (reasoning_effort : option string) (thinking_budget : option Z).

(** An exception that the remote call raises on the request is the outcome
    of [converse], unchanged: it is neither caught nor replaced by another,
    and no answer is extracted. *)
Theorem converse_propagates_client_error request e :
  converse_request lower model_id prompt system_prompt temperature max_tokens
    reasoning_effort thinking_budget = Ok request →
  client request = Raise e →
  run (converse lower client model_id prompt system_prompt temperature
         max_tokens reasoning_effort thinking_budget)
  = Raise e.
Proof.
  intros Hreq He. rewrite run_converse, Hreq.
  unfold mbind, exc_bind. by rewrite He.
Qed.

(** With a service whose replies carry a content sequence of dict blocks,
    an exception that leaves [converse] is the one that the remote call
    raised on the request, an [IndexError] or a [KeyError] on ["text"]:
    building the request never raises, whatever the arguments. *)
Theorem converse_raises_only e :
  run (converse lower client model_id prompt system_prompt temperature
         max_tokens reasoning_effort thinking_budget)
  = Raise e →
  (∃ request,
     converse_request lower model_id prompt system_prompt temperature max_tokens
       reasoning_effort thinking_budget = Ok request
     ∧ client request = Raise e)
  ∨ e = IndexError ∨ e = KeyError "text".
Proof.
  rewrite run_converse, converse_request_tree. unfold mbind, exc_bind.
  destruct (client _) as [resp|e'] eqn:Hc.
  - intros He. right. by apply (extract_text_raises (content resp)).
  - intros [= <-]. left. eauto.
Qed.

(** Once the service has replied, [converse] raises [IndexError] exactly on
    an empty content sequence, and [KeyError] on ["text"] exactly on a
    non-empty one in which no block has a text field. *)
Theorem converse_error_iff request resp :
  converse_request lower model_id prompt system_prompt temperature max_tokens
    reasoning_effort thinking_budget = Ok request →
  client request = Ok resp →
  (run (converse lower client model_id prompt system_prompt temperature
          max_tokens reasoning_effort thinking_budget)
   = Raise IndexError
   ↔ content resp = [])
  ∧ (run (converse lower client model_id prompt system_prompt temperature
            max_tokens reasoning_effort thinking_budget)
     = Raise (KeyError "text")
     ↔ content resp ≠ [] ∧ Forall no_text (content resp)).
Proof.
  intros Hreq Hresp. rewrite (run_converse_reply _ _ _ _ _ _ _ _ _ _ _ Hreq Hresp).
  split; [apply extract_text_IndexError_iff|apply extract_text_KeyError_iff].
Qed.

(** Once the service has replied, [converse] returns [v] exactly when [v]
    is the text field of the first block that has one, whatever the length
    of the content sequence: the test on the length changes nothing. *)
Theorem converse_answer_iff request resp v :
  converse_request lower model_id prompt system_prompt temperature max_tokens
    reasoning_effort thinking_budget = Ok request →
  client request = Ok resp →
  run (converse lower client model_id prompt system_prompt temperature
         max_tokens reasoning_effort thinking_budget)
  = Ok v
  ↔ ∃ pre d post,
      content resp = pre ++ d :: post ∧ Forall no_text pre
      ∧ d !! "text" = Some v.
Proof.
  intros Hreq Hresp. rewrite (run_converse_reply _ _ _ _ _ _ _ _ _ _ _ Hreq Hresp).
  apply extract_text_Ok_iff.
Qed.
End Outcomes.

Lemma converse_propagates_client_error_witness :
  run (converse PyStr.ascii_lower (failing_with (ClientError "ThrottlingException"))
         "anthropic.claude-3-sonnet" "hi" default_system_prompt
         default_temperature default_max_tokens None None)
  = Raise (ClientError "ThrottlingException").
Proof.
  exact (converse_propagates_client_error
           _ (failing_with (ClientError "ThrottlingException")) _ _ _ _ _ _ _ _ _
           (converse_request_tree _ _ _ _ _ _ _ _) eq_refl).
Defined.

Lemma converse_raises_only_witness :
  (∃ request,
     converse_request PyStr.ascii_lower "anthropic.claude-3-sonnet" "hi" default_system_prompt
       default_temperature default_max_tokens None None = Ok request
     ∧ reply_with no_text_blocks request = Raise (KeyError "text"))
  ∨ KeyError "text" = IndexError ∨ KeyError "text" = KeyError "text".
Proof.
  apply (converse_raises_only _ (reply_with no_text_blocks)
           "anthropic.claude-3-sonnet" "hi" default_system_prompt
           default_temperature default_max_tokens None None).
  rewrite run_converse, converse_request_tree. reflexivity.
Defined.

Lemma converse_error_iff_witness :
  run (converse PyStr.ascii_lower (reply_with [∅]) "anthropic.claude-3-sonnet" "hi"
         default_system_prompt default_temperature default_max_tokens None None)
  = Raise (KeyError "text").
Proof.
  apply (proj2 (converse_error_iff _ (reply_with [∅]) _ _ _ _ _ _ _ _ (Response [∅])
                  (converse_request_tree _ _ _ _ _ _ _ _) eq_refl)).
  split; [done|]. by repeat constructor.
Defined.

Lemma converse_answer_iff_witness :
  run (converse PyStr.ascii_lower (reply_with [ {[ "text" := JStr "hello" ]} ])
         "anthropic.claude-3-sonnet" "hi"
         default_system_prompt default_temperature default_max_tokens None None)
  = Ok (JStr "hello").
Proof.
  apply (converse_answer_iff _ (reply_with [ {[ "text" := JStr "hello" ]} ])
           _ _ _ _ _ _ _ _ (Response [ {[ "text" := JStr "hello" ]} ]) _
           (converse_request_tree _ _ _ _ _ _ _ _) eq_refl).
  by exists [], {[ "text" := JStr "hello" ]}, [].
Defined.

(** ** Shape of the request *)

Lemma request_model_id m p sp t mt eff bud :
  field "modelId" (request_tree m p sp t mt eff bud) = Some (JStr m).
Proof. destruct eff; vm_compute; reflexivity. Qed.

Lemma request_keys m p sp t mt eff bud :
  keys (request_tree m p sp t mt eff bud)
  = {[ "modelId"; "messages"; "system"; "inferenceConfig" ]}
    ∪ match eff with
      | Some _ => {[ "additionalModelRequestFields" ]}
      | None => ∅
      end.
Proof. destruct eff, bud; vm_compute; reflexivity. Qed.

Lemma inference_keys t mt bud :
  keys (inference_tree t mt bud)
  = {[ "temperature"; "maxTokens" ]}
    ∪ match bud with Some _ => {[ "thinking" ]} | None => ∅ end.
Proof. destruct bud; vm_compute; reflexivity. Qed.

Lemma sent_effort_is_Some lower model_id reasoning_effort :
  match sent_effort lower model_id reasoning_effort with Some _ => true | None => false end
  = is_gpt lower model_id && truthy reasoning_effort.
Proof.
  unfold sent_effort.
  by destruct (is_gpt lower model_id), reasoning_effort as [[|c s]|].
Qed.

Lemma sent_budget_is_Some lower model_id thinking_budget :
  match sent_budget lower model_id thinking_budget with Some _ => true | None => false end
  = is_claude lower model_id && is_not_none thinking_budget.
Proof.
  unfold sent_budget. by destruct (is_claude lower model_id), thinking_budget.
Qed.

(** The request has the four keys [modelId], [messages], [system] and
    [inferenceConfig], the key [additionalModelRequestFields] when the
    reasoning-effort rule fires, and no other; its inference configuration
    has [temperature], [maxTokens], ["thinking"] when the thinking rule
    fires, and no other; [modelId] is the identifier as given, in its own
    letter case. *)
Theorem request_shape lower model_id prompt system_prompt temperature max_tokens
    reasoning_effort thinking_budget :
  ∃ request config,
    converse_request lower model_id prompt system_prompt temperature max_tokens
      reasoning_effort thinking_budget = Ok request
    ∧ field "inferenceConfig" request = Some config
    ∧ field "modelId" request = Some (JStr model_id)
    ∧ keys request
      = {[ "modelId"; "messages"; "system"; "inferenceConfig" ]}
        ∪ (if is_gpt lower model_id && truthy reasoning_effort
           then {[ "additionalModelRequestFields" ]} else ∅)
    ∧ keys config
      = {[ "temperature"; "maxTokens" ]}
        ∪ (if is_claude lower model_id && is_not_none thinking_budget
           then {[ "thinking" ]} else ∅).
Proof.
  eexists _, _. split; [apply converse_request_tree|].
  split; [apply request_inference|]. split; [apply request_model_id|].
  rewrite request_keys, inference_keys.
  rewrite <- sent_effort_is_Some, <- sent_budget_is_Some.
  by destruct (sent_effort _ _ _), (sent_budget _ _ _).
Qed.

(** The request has [additionalModelRequestFields] exactly when the
    lowercase identifier contains ["openai"] or ["gpt"] and the reasoning
    effort is a non-empty string; it is then the one-entry object
    [{reasoning_effort: <the effort>}]. *)
Theorem effort_attached_iff lower model_id prompt system_prompt temperature
    max_tokens reasoning_effort thinking_budget :
  ∃ request,
    converse_request lower model_id prompt system_prompt temperature max_tokens
      reasoning_effort thinking_budget = Ok request
    ∧ ∀ fields,
        field "additionalModelRequestFields" request = Some fields
        ↔ ∃ s, (PyStr.contains "openai" (lower model_id) = true
                ∨ PyStr.contains "gpt" (lower model_id) = true)
               ∧ reasoning_effort = Some s ∧ s ≠ ""
               ∧ fields = JObj {[ "reasoning_effort" := JStr s ]}.
Proof.
  eexists. split; [apply converse_request_tree|].
  intros fields. rewrite request_extension. split.
  - destruct (sent_effort lower model_id reasoning_effort) as [s|] eqn:Hs; [|done].
    intros [= <-]. apply sent_effort_Some in Hs as (Hg & -> & Hne).
    exists s. repeat split; [|done].
    unfold is_gpt in Hg. apply orb_true_iff in Hg. tauto.
  - intros (s & Hg & Hs & Hne & ->).
    rewrite (proj2 (sent_effort_Some _ _ _ s)); [done|].
    repeat split; [|done..]. unfold is_gpt. apply orb_true_iff. tauto.
Qed.

(** The two rules do not interfere: the reasoning-effort field depends on
    the identifier and the reasoning effort only, the inference
    configuration on the identifier, the temperature, the token limit and
    the thinking budget only. *)
Theorem rules_do_not_interfere lower model_id temperature max_tokens
    reasoning_effort thinking_budget
    prompt system_prompt prompt' system_prompt' temperature' max_tokens'
    reasoning_effort' thinking_budget' :
  ∃ r1 r2 r3,
    converse_request lower model_id prompt system_prompt temperature max_tokens
      reasoning_effort thinking_budget = Ok r1
    ∧ converse_request lower model_id prompt' system_prompt' temperature' max_tokens'
        reasoning_effort thinking_budget' = Ok r2
    ∧ converse_request lower model_id prompt' system_prompt' temperature max_tokens
        reasoning_effort' thinking_budget = Ok r3
    ∧ field "additionalModelRequestFields" r1
      = field "additionalModelRequestFields" r2
    ∧ field "inferenceConfig" r1 = field "inferenceConfig" r3.
Proof.
  eexists _, _, _. repeat (split; [apply converse_request_tree|]).
  by rewrite !request_extension, !request_inference.
Qed.

Lemma effort_attached_iff_witness :
  ∃ request,
    converse_request PyStr.ascii_lower "openai.gpt-oss-120b" "hi" default_system_prompt
      default_temperature default_max_tokens (Some "low") None = Ok request
    ∧ field "additionalModelRequestFields" request
      = Some (JObj {[ "reasoning_effort" := JStr "low" ]}).
Proof.
  destruct (effort_attached_iff PyStr.ascii_lower "openai.gpt-oss-120b" "hi" default_system_prompt
              default_temperature default_max_tokens (Some "low") None)
    as (request & Hreq & Hiff).
  exists request. split; [exact Hreq|]. apply Hiff.
  exists "low". repeat split; [right; reflexivity|discriminate].
Defined.

(** ** Outcomes of the cost estimator in CPython's arithmetic *)

Lemma checked_raises f e : PyNum.checked f = Raise e → e = OverflowError.
Proof. destruct f; simpl; congruence. Qed.

Lemma to_float_raises x e : PyNum.to_float x = Raise e → e = OverflowError.
Proof. destruct x; simpl; [apply checked_raises|done]. Qed.

Lemma mul_outcome x y :
  (∃ v, PyNum.mul x y = Ok v) ∨ PyNum.mul x y = Raise OverflowError.
Proof.
  destruct x as [a|f], y as [b|g]; simpl; eauto.
  - destruct (PyNum.int_to_float a) as [f'|e] eqn:E; simpl; eauto.
    right. by rewrite (checked_raises _ _ E).
  - destruct (PyNum.int_to_float b) as [g'|e] eqn:E; simpl; eauto.
    right. by rewrite (checked_raises _ _ E).
Qed.

Lemma mul_float_outcome f y :
  (∃ g, PyNum.mul (PyNum.PyFloat f) y = Ok (PyNum.PyFloat g))
  ∨ PyNum.mul (PyNum.PyFloat f) y = Raise OverflowError.
Proof.
  destruct y as [b|g]; simpl; eauto.
  destruct (PyNum.int_to_float b) as [g'|e] eqn:E; simpl; eauto.
  right. by rewrite (checked_raises _ _ E).
Qed.

Lemma truediv_1000_outcome x :
  (∃ f, PyNum.truediv x (PyNum.PyInt 1000) = Ok (PyNum.PyFloat f))
  ∨ PyNum.truediv x (PyNum.PyInt 1000) = Raise OverflowError.
Proof.
  destruct x as [a|f]; simpl; eauto.
  unfold PyNum.int_truediv. simpl (1000 =? 0).
  destruct (a =? 0); simpl; eauto.
  destruct (SFdiv_core_binary _ _ _ _ _ _) as [[q e'] l].
  destruct (PyNum.checked _) as [f|e] eqn:E; simpl; eauto.
  right. by rewrite (checked_raises _ _ E).
Qed.

(** On numbers of either type [calculate_monthly_cost] returns a float,
    never an int, or raises [OverflowError]: no other exception can leave
    it, the division being by the literal [1000]. *)
Theorem cost_float_or_overflow (r i o p_in p_out : PyNum.num) :
  (∃ f, calculate_monthly_cost r i o p_in p_out = Ok (PyNum.PyFloat f))
  ∨ calculate_monthly_cost r i o p_in p_out = Raise OverflowError.
Proof.
  unfold calculate_monthly_cost. cbn [mul lit truediv add py_arith].
  destruct (mul_outcome r (PyNum.PyInt 30)) as [[requests ->]| ->]; [|by right].
  cbn [mbind exc_bind].
  destruct (mul_outcome requests i) as [[t_in ->]| ->]; [|by right].
  cbn [mbind exc_bind].
  destruct (truediv_1000_outcome t_in) as [[tok_in ->]| ->]; [|by right].
  cbn [mbind exc_bind].
  destruct (mul_outcome requests o) as [[t_out ->]| ->]; [|by right].
  cbn [mbind exc_bind].
  destruct (truediv_1000_outcome t_out) as [[tok_out ->]| ->]; [|by right].
  cbn [mbind exc_bind].
  destruct (mul_float_outcome tok_in p_in) as [[c_in ->]| ->]; [|by right].
  cbn [mbind exc_bind].
  destruct (mul_float_outcome tok_out p_out) as [[c_out ->]| ->]; [|by right].
  cbn [mbind exc_bind]. left. by eexists.
Qed.

(** With no requests, integer token counts and float prices the cost is a
    zero when both prices are finite, negative only when both prices are,
    and NaN as soon as a price is infinite or NaN. *)
Theorem cost_zero_requests_binary64 (i o : Z) (p_in p_out : spec_float) :
  calculate_monthly_cost (PyNum.PyInt 0) (PyNum.PyInt i) (PyNum.PyInt o)
    (PyNum.PyFloat p_in) (PyNum.PyFloat p_out)
  = Ok (PyNum.PyFloat
          (if is_finite p_in && is_finite p_out
           then S754_zero (sign_bit p_in && sign_bit p_out)
           else S754_nan)).
Proof.
  unfold calculate_monthly_cost. cbn [mul lit truediv add py_arith].
  destruct p_in as [s|s| |s m e], p_out as [s'|s'| |s' m' e'];
    try destruct s; try destruct s'; reflexivity.
Qed.

(** ** Overflow beyond the binary64 range *)

Lemma shiftr_pos a n : 0 < a → 0 ≤ n ≤ Z.log2 a → 0 < Z.shiftr a n.
Proof.
  intros Ha Hn. pose proof (Z.shiftr_nonneg a n) as [_ H]. specialize (H ltac:(lia)).
  destruct (Z.eq_dec (Z.shiftr a n) 0) as [E|]; [|lia].
  apply Z.shiftr_eq_0_iff in E. lia.
Qed.

(** What one alignment step does to a positive mantissa whose magnitude is
    at least [2 ^ 1024]: the mantissa stays positive and the exponent ends
    above the largest one of the format. *)
Lemma shr_fexp_large m e l :
  0 < m → 1025 ≤ Zdigits2 m + e →
  0 < shr_m (shr_fexp PyNum.prec PyNum.emax m e l).1
  ∧ 972 ≤ (shr_fexp PyNum.prec PyNum.emax m e l).2
  ∧ 1025 ≤ Zdigits2 (shr_m (shr_fexp PyNum.prec PyNum.emax m e l).1)
           + (shr_fexp PyNum.prec PyNum.emax m e l).2.
Proof.
  intros Hm HB. unfold shr_fexp, shr. rewrite fexp_binary64.
  rewrite (Zdigits2_log2 m Hm) in *.
  destruct (Z.max (Z.succ (Z.log2 m) + e - 53) (-1074) - e) as [|p|p] eqn:Hn; simpl;
    rewrite ?shr_record_of_loc_m, ?(Zdigits2_log2 m Hm); [lia| |lia].
  rewrite iter_shr_1_m by (rewrite shr_record_of_loc_m; lia).
  rewrite shr_record_of_loc_m.
  pose proof (shiftr_pos m (Z.pos p) Hm ltac:(lia)) as Hpos.
  rewrite (Zdigits2_log2 _ Hpos), Z.log2_shiftr by done. lia.
Qed.

Lemma binary_round_aux_overflow sx mx ex lx :
  0 < mx → 1025 ≤ Zdigits2 mx + ex →
  binary_round_aux PyNum.prec PyNum.emax sx mx ex lx = S754_infinity sx.
Proof.
  intros Hm HB. unfold binary_round_aux.
  pose proof (shr_fexp_large mx ex lx Hm HB) as (H1 & _ & H2).
  destruct (shr_fexp PyNum.prec PyNum.emax mx ex lx) as [mrs' e']. simpl in H1, H2.
  pose proof (round_nearest_even_bounds (shr_m mrs') (loc_of_shr_record mrs')) as Hr.
  set (m1 := round_nearest_even _ _) in *.
  assert (0 < m1) as Hm1 by lia.
  pose proof (Zdigits2_mono (shr_m mrs') m1 ltac:(lia)) as Hd.
  pose proof (shr_fexp_large m1 e' loc_Exact Hm1 ltac:(lia)) as (H3 & H4 & _).
  destruct (shr_fexp PyNum.prec PyNum.emax m1 e' loc_Exact) as [mrs'' e''].
  simpl in H3, H4.
  destruct (shr_m mrs'') as [|m|m]; [lia| |lia].
  change (PyNum.emax - PyNum.prec) with 971.
  destruct (Z.leb_spec e'' 971); [lia|done].
Qed.

(** [a / b] on ints raises as soon as the quotient reaches [2 ^ 1024]. *)
Lemma int_truediv_overflow a b :
  b ≠ 0 → 2 ^ 1024 * Z.abs b ≤ Z.abs a →
  PyNum.int_truediv a b = Raise OverflowError.
Proof.
  intros Hb Ha. unfold PyNum.int_truediv.
  destruct (Z.eqb_spec b 0) as [|_]; [done|].
  assert (0 < 2 ^ 1024) by (by vm_compute).
  destruct (Z.eqb_spec a 0) as [->|Ha0]; [simpl in Ha; nia|].
  unfold SFdiv_core_binary. rewrite fexp_binary64.
  set (e' := Z.min _ _). set (s := 0 - 0 - e').
  assert (e' ≤ 0) by (subst e'; lia).
  set (m' := match s with Z0 => _ | Z.pos _ => _ | Z.neg _ => _ end).
  assert (m' = Z.abs a * 2 ^ s) as Hm'.
  { subst m'. destruct s eqn:Hs; [simpl; lia|by rewrite Z.shiftl_mul_pow2|lia]. }
  pose proof (Z_div_mod m' (Z.abs b) ltac:(lia)) as Hdiv.
  destruct (Z.div_eucl m' (Z.abs b)) as [q r]. destruct Hdiv as [Hq Hr].
  assert (0 < 2 ^ s) by (apply Z.pow_pos_nonneg; lia).
  assert (2 ^ (1024 + s) ≤ q) as Hlow.
  { rewrite Z.pow_add_r by lia.
    assert (2 ^ 1024 * 2 ^ s * Z.abs b ≤ m') by nia.
    assert (2 ^ 1024 * 2 ^ s * Z.abs b < (q + 1) * Z.abs b) by lia.
    assert (2 ^ 1024 * 2 ^ s < q + 1) by nia. lia. }
  assert (0 < q) by (pose proof (Z.pow_pos_nonneg 2 (1024 + s)); lia).
  rewrite binary_round_aux_overflow; [done|done|].
  rewrite Zdigits2_log2 by done.
  apply Z.log2_le_pow2 in Hlow; lia.
Qed.

(** With integer counts and float prices, [calculate_monthly_cost] raises
    [OverflowError] as soon as one of the two monthly token totals,
    [r*30*i/1000] or [r*30*o/1000], reaches [2 ^ 1024]. *)
Theorem cost_overflows_above (r i o : Z) (p_in p_out : spec_float) :
  2 ^ 1024 * 1000 ≤ Z.abs (r * 30 * i) ∨ 2 ^ 1024 * 1000 ≤ Z.abs (r * 30 * o) →
  calculate_monthly_cost (PyNum.PyInt r) (PyNum.PyInt i) (PyNum.PyInt o)
    (PyNum.PyFloat p_in) (PyNum.PyFloat p_out)
  = Raise OverflowError.
Proof.
  intros Hbig. unfold calculate_monthly_cost. cbn [mul lit truediv add py_arith].
  cbn [PyNum.mul mbind exc_bind PyNum.truediv].
  destruct (truediv_1000_outcome (PyNum.PyInt (r * 30 * i))) as [[tok_in E]|E];
    cbn [PyNum.truediv] in E; rewrite E; [|done].
  cbn [mbind exc_bind]. destruct Hbig as [Hbig|Hbig].
  - rewrite int_truediv_overflow in E; [done|lia|]. by change (Z.abs 1000) with 1000.
  - rewrite int_truediv_overflow; [done|lia|]. by change (Z.abs 1000) with 1000.
Qed.

Lemma cost_overflows_above_witness :
  calculate_monthly_cost (PyNum.PyInt 1) (PyNum.PyInt 1) (PyNum.PyInt (- 10 ^ 400))
    (PyNum.PyFloat PyNum.f0_003) (PyNum.PyFloat PyNum.f0_015)
  = Raise OverflowError.
Proof.
  apply cost_overflows_above. right. by vm_compute.
Defined.

(** ** The cost in exact arithmetic *)

Lemma cost_exact (r i o p_in p_out : Q) :
  calculate_monthly_cost r i o p_in p_out
  = Ok ((r * 30 * i / 1000) * p_in + (r * 30 * o / 1000) * p_out)%Q.
Proof. reflexivity. Qed.

(** In exact arithmetic the cost of non-negative usage at non-negative
    prices is non-negative. *)
Theorem cost_nonneg (r i o p_in p_out : Q) :
  (0 <= r)%Q → (0 <= i)%Q → (0 <= o)%Q → (0 <= p_in)%Q → (0 <= p_out)%Q →
  ∃ v, calculate_monthly_cost r i o p_in p_out = Ok v ∧ (0 <= v)%Q.
Proof.
  intros Hr Hi Ho Hpi Hpo. eexists. split; [apply cost_exact|].
  assert (∀ t, (0 <= t)%Q → (0 <= r * 30 * t / 1000)%Q) as Htok.
  { intros t Ht. apply Qle_shift_div_l; [reflexivity|].
    rewrite Qmult_0_l. repeat apply Qmult_le_0_compat; done. }
  pose proof (Qmult_le_0_compat _ _ (Htok i Hi) Hpi).
  pose proof (Qmult_le_0_compat _ _ (Htok o Ho) Hpo). lra.
Qed.

(** In exact arithmetic the cost is linear: [k] times the requests cost
    [k] times as much, and the cost at a sum of prices is the sum of the
    costs. *)
Theorem cost_linear (k r i o p_in p_out p_in' p_out' : Q) :
  ∃ v v' w s,
    calculate_monthly_cost r i o p_in p_out = Ok v
    ∧ calculate_monthly_cost r i o p_in' p_out' = Ok v'
    ∧ calculate_monthly_cost (k * r)%Q i o p_in p_out = Ok w
    ∧ calculate_monthly_cost r i o (p_in + p_in')%Q (p_out + p_out')%Q = Ok s
    ∧ (w == k * v)%Q ∧ (s == v + v')%Q.
Proof.
  eexists _, _, _, _. repeat (split; [apply cost_exact|]). split; field.
Qed.

Lemma cost_nonneg_witness :
  ∃ v, calculate_monthly_cost 100%Q 500%Q 0%Q 0.003%Q 0%Q = Ok v ∧ (0 <= v)%Q.
Proof. apply cost_nonneg; by vm_compute. Defined.
